(** * LinkedIn hiring-posts scraper: the orchestration in [main.py]

    A shallow embedding of [main.py] (argument defaults, configuration
    loading, the credential check, the browser set-up and the
    [try]/[except]/[finally] block around the scraping calls), followed by a
    model of the Search Collector and of the Hiring Classifier, whose code
    lives in [scraper/linkedin_scraper.py].

    A run is a computation in a small writer/exception monad: it emits the
    sequence of observable events (prints and calls to the browsing
    collaborator) and ends either normally or with a pending Python
    exception. *)

From Stdlib Require Import String Ascii ZArith QArith Bool Lia Arith List.
Import ListNotations.

Local Open Scope string_scope.
Local Open Scope list_scope.
Local Open Scope Z_scope.

(* ------------------------------------------------------------------ *)
(** ** Python exceptions and results                                    *)
(* ------------------------------------------------------------------ *)

(** The exceptions the orchestration can see.  [KeyboardInterrupt],
    [SystemExit] and [PyBaseException cls] (any other class that derives
    from [BaseException] only, e.g. ["GeneratorExit"]) are not instances of
    [Exception]; [IndexError] and every other exception of the scraper
    ([PyException cls], e.g. ["AuthFailed"]) derive from [Exception].
    [SystemExit code] carries an integer code, as the [sys.exit(1)] of
    [main.py] does. *)
Inductive exn : Type :=
| KeyboardInterrupt
| SystemExit (code : Z)
| IndexError
| PyException (cls : string)
| PyBaseException (cls : string).

(** [isinstance(e, Exception)]. *)
Definition is_Exception (e : exn) : bool :=
  match e with
  | KeyboardInterrupt | SystemExit _ | PyBaseException _ => false
  | IndexError | PyException _ => true
  end.

Inductive res (A : Type) : Type :=
| Ok (a : A)
| Raise (e : exn).
Arguments Ok {A} a.
Arguments Raise {A} e.

(* ------------------------------------------------------------------ *)
(** ** The country table                                                *)
(* ------------------------------------------------------------------ *)

(** The keys of [COUNTRIES]; [--country] is restricted to them by
    [choices=list(COUNTRIES.keys())]. *)
Inductive country_key : Type := india | usa.

Record geolocation : Type := {
  latitude : Q;
  longitude : Q;
  accuracy : Z
}.

Record country : Type := {
  name : string;
  geo : geolocation;
  tz : string;
  locale : string;
  linkedin_subdomain : string;
  session_dir : string;
  email_env : string;
  password_env : string
}.

Definition COUNTRIES (k : country_key) : country :=
  match k with
  | india =>
      {| name := "India";
         geo := {| latitude := 205937 # 10000;
                   longitude := 789629 # 10000;
                   accuracy := 100 |};
         tz := "Asia/Kolkata";
         locale := "en-IN";
         linkedin_subdomain := "in";
         session_dir := "browser_session_india";
         email_env := "LINKEDIN_EMAIL";
         password_env := "LINKEDIN_PASSWORD" |}
  | usa =>
      {| name := "United States";
         geo := {| latitude := 377749 # 10000;
                   longitude := - (1224194 # 10000);
                   accuracy := 100 |};
         tz := "America/Los_Angeles";
         locale := "en-US";
         linkedin_subdomain := "www";
         session_dir := "browser_session_usa";
         email_env := "LINKEDIN_EMAIL_USA";
         password_env := "LINKEDIN_PASSWORD_USA" |}
  end.

(* ------------------------------------------------------------------ *)
(** ** Configuration                                                    *)
(* ------------------------------------------------------------------ *)

(** The configuration dictionary, with the keys and value types of
    [default_config]. *)
Record config : Type := {
  search_keywords : list string;
  job_titles : list string;
  max_results : Z;
  delay_between_requests_seconds : Z;
  headless : bool
}.

(** The content of [config.json]: each key may be present or not. *)
Record config_file : Type := {
  f_search_keywords : option (list string);
  f_job_titles : option (list string);
  f_max_results : option Z;
  f_delay_between_requests_seconds : option Z;
  f_headless : option bool
}.

Definition default_config : config :=
  {| search_keywords := ["hiring"; "we are hiring"; "looking for"; "job opening"];
     job_titles := ["mobile developer"; "app developer"; "iOS developer";
                    "android developer"];
     max_results := 50;
     delay_between_requests_seconds := 2;
     headless := false |}.

(** [d.update(loaded)]: a key of [loaded] replaces the one of [d]. *)
Definition update (d : config) (loaded : config_file) : config :=
  {| search_keywords := match f_search_keywords loaded with
                        | Some v => v | None => search_keywords d end;
     job_titles := match f_job_titles loaded with
                   | Some v => v | None => job_titles d end;
     max_results := match f_max_results loaded with
                    | Some v => v | None => max_results d end;
     delay_between_requests_seconds :=
       match f_delay_between_requests_seconds loaded with
       | Some v => v | None => delay_between_requests_seconds d end;
     headless := match f_headless loaded with
                 | Some v => v | None => headless d end |}.

(** [load_config()]; the argument is [config.json] when it exists. *)
Definition load_config (config_json : option config_file) : config :=
  match config_json with
  | Some loaded => update default_config loaded
  | None => default_config
  end.

Definition set_max_results (c : config) (n : Z) : config :=
  {| search_keywords := search_keywords c;
     job_titles := job_titles c;
     max_results := n;
     delay_between_requests_seconds := delay_between_requests_seconds c;
     headless := headless c |}.

Definition set_headless (c : config) (b : bool) : config :=
  {| search_keywords := search_keywords c;
     job_titles := job_titles c;
     max_results := max_results c;
     delay_between_requests_seconds := delay_between_requests_seconds c;
     headless := b |}.

(* ------------------------------------------------------------------ *)
(** ** Command line                                                     *)
(* ------------------------------------------------------------------ *)

(** The flags given on the command line; [None] is an omitted flag. *)
Record argv : Type := {
  flag_search : option string;
  flag_max_results : option Z;
  flag_country : option country_key;
  flag_headless : bool
}.

(** The namespace returned by [parser.parse_args()]. *)
Record namespace : Type := {
  args_search : option string;
  args_max_results : Z;
  args_country : country_key;
  args_headless : bool
}.

Definition parse_args (a : argv) : namespace :=
  {| args_search := flag_search a;
     args_max_results := match flag_max_results a with
                         | Some n => n | None => 50 end;
     args_country := match flag_country a with
                     | Some k => k | None => india end;
     args_headless := flag_headless a |}.

(** Truth value of an [int]. *)
Definition int_truthy (n : Z) : bool := negb (n =? 0).

(** Truth value of an optional [str] ([None] and [""] are false). *)
Definition str_truthy (s : option string) : bool :=
  match s with
  | None => false
  | Some EmptyString => false
  | Some (String _ _) => true
  end.

(** The lines "Override config with CLI args". *)
Definition override_config (args : namespace) (c : config) : config :=
  let c := if int_truthy (args_max_results args)
           then set_max_results c (args_max_results args) else c in
  if args_headless args then set_headless c (args_headless args) else c.

(** The configuration in force for the rest of the run. *)
Definition effective_config (a : argv) (config_json : option config_file)
  : config :=
  override_config (parse_args a) (load_config config_json).

(* ------------------------------------------------------------------ *)
(** ** Observable events                                                *)
(* ------------------------------------------------------------------ *)

(** What [print] writes; the decorative rules and pictograms are left out,
    the formatted values are kept. *)
Inductive message : Type :=
| MsgBanner (search_query : string) (max : Z) (country_name dir : string)
            (headless_mode : bool)
| MsgMissingCredentials (country_name email_var password_var : string)
| MsgUsingCredentials (email : string)
| MsgLocale (country_name : string) (g : geolocation) (timezone loc : string)
| MsgSearching (linkedin_base search_query : string)
| MsgNoUrlsFound
| MsgInterrupted
| MsgUnexpectedError (e : exn).

Definition page : Type := nat.

Inductive event : Type :=
| Print (m : message)
| PrintExc
| SyncPlaywrightEnter
| SyncPlaywrightExit
| Mkdir (dir : string)
| LaunchPersistentContext (user_data_dir : string) (headless_mode : bool)
                          (g : geolocation) (timezone_id loc : string)
| SetExtraHttpHeaders
| NewPage
| SearchLinkedinPosts (pg : page) (search_query : string) (max delay : Z)
                      (subdomain email password : string)
| ScrapeLinkedinPosts (pg : page) (post_urls : list string) (delay : Z)
                      (filter_hiring_only : bool)
| SaveSession
| ContextClose.

(** Events that only write to the terminal. *)
Definition is_print (ev : event) : bool :=
  match ev with
  | Print _ | PrintExc => true
  | _ => false
  end.

Definition is_save_session (ev : event) : bool :=
  match ev with SaveSession => true | _ => false end.

Definition is_context_close (ev : event) : bool :=
  match ev with ContextClose => true | _ => false end.

Definition is_scrape (ev : event) : bool :=
  match ev with ScrapeLinkedinPosts _ _ _ _ => true | _ => false end.

(* ------------------------------------------------------------------ *)
(** ** The run monad                                                    *)
(* ------------------------------------------------------------------ *)

(** A computation: the events it emitted, and how it ended. *)
Definition Py (A : Type) : Type := (list event * res A)%type.

Definition ret {A} (a : A) : Py A := ([], Ok a).

Definition bind {A B} (m : Py A) (f : A -> Py B) : Py B :=
  match m with
  | (t, Ok a) => let (t', r) := f a in (t ++ t', r)
  | (t, Raise e) => (t, Raise e)
  end.

Notation "x <- m ;; k" := (bind m (fun x => k))
  (at level 61, m at next level, right associativity).
Notation "m ;;; k" := (bind m (fun _ => k))
  (at level 61, right associativity).

Definition raise {A} (e : exn) : Py A := ([], Raise e).

Definition emit (ev : event) : Py unit := ([ev], Ok tt).

(** A call to a collaborator: the call is observed, then it returns or
    raises as the collaborator decides. *)
Definition call {A} (ev : event) (outcome : res A) : Py A := ([ev], outcome).

Definition print (m : message) : Py unit := emit (Print m).

(** [sys.exit(code)]. *)
Definition sys_exit {A} (code : Z) : Py A := raise (SystemExit code).

(** [try: body / except ...: handler e]; [handler e = None] when no
    [except] clause matches [e]. *)
Definition try_except {A} (body : Py A) (handler : exn -> option (Py A))
  : Py A :=
  match body with
  | (t, Ok a) => (t, Ok a)
  | (t, Raise e) =>
      match handler e with
      | Some h => let (t', r) := h in (t ++ t', r)
      | None => (t, Raise e)
      end
  end.

(** [try: body / finally: final]; an exception of [final] replaces the
    pending one. *)
Definition try_finally {A} (body : Py A) (final : Py unit) : Py A :=
  match body, final with
  | (t, r), (t', Ok _) => (t ++ t', r)
  | (t, _), (t', Raise e') => (t ++ t', Raise e')
  end.

(** [seq[0]]. *)
Definition index0 {A} (l : list A) : Py A :=
  match l with
  | x :: _ => ret x
  | [] => raise IndexError
  end.

Definition trace {A} (m : Py A) : list event := fst m.
Definition outcome {A} (m : Py A) : res A := snd m.

(** The status a process gets from [sys.exit(code)] with an integer code
    (POSIX, 64-bit [long]): the interpreter converts the code to a C
    [long], passes it to [exit], and the status keeps its low eight bits;
    a code that does not fit a [long] is read as -1, status 255. *)
Definition process_status (code : Z) : Z :=
  if (- 2 ^ 63 <=? code) && (code <? 2 ^ 63) then code mod 256 else 255.

(** The status the process exits with: 0 when [main] returns, the status
    of the code of [sys.exit], 1 for an uncaught exception, and 130 (death
    by SIGINT) for an uncaught interrupt. *)
Definition exit_status {A} (m : Py A) : Z :=
  match outcome m with
  | Ok _ => 0
  | Raise (SystemExit code) => process_status code
  | Raise KeyboardInterrupt => 130
  | Raise _ => 1
  end.

(* ------------------------------------------------------------------ *)
(** ** The environment of a run                                         *)
(* ------------------------------------------------------------------ *)

(** Everything [main] reads from outside: the files, the process
    environment (after [load_dotenv]), and how each call to Playwright and
    to [scraper.linkedin_scraper] ends in this run.  Each of these calls is
    made at most once per run. *)
Record world : Type := {
  config_json : option config_file;
  getenv : string -> option string;
  sync_playwright : res unit;
  mkdir : res unit;
  launch_persistent_context : res unit;
  set_extra_http_headers : res unit;
  context_pages : list page;
  new_page : res page;
  search_linkedin_posts : res (list string);
  scrape_linkedin_posts : res unit;
  save_session : res unit;
  context_close : res unit
}.

(** [not x] for the value of [os.getenv]. *)
Definition unset_or_empty (v : option string) : bool := negb (str_truthy v).

Definition from_env (v : option string) : string :=
  match v with Some s => s | None => "" end.

(** The [except] clauses of [main], in order. *)
Definition handlers (e : exn) : option (Py unit) :=
  match e with
  | KeyboardInterrupt => Some (print MsgInterrupted)
  | _ =>
      if is_Exception e
      then Some (print (MsgUnexpectedError e) ;;; emit PrintExc)
      else None
  end.

(** The body of the [try] statement. *)
Definition try_body (w : world) (config : config) (country_info : country)
    (pg : page) (search_query email password : string) : Py unit :=
  let linkedin_base :=
    ("https://" ++ linkedin_subdomain country_info ++ ".linkedin.com")%string in
  print (MsgSearching linkedin_base search_query) ;;;
  post_urls <- call (SearchLinkedinPosts pg search_query
                       (max_results config)
                       (delay_between_requests_seconds config)
                       (linkedin_subdomain country_info) email password)
                    (search_linkedin_posts w) ;;
  (match post_urls with
   | [] => print MsgNoUrlsFound ;;; sys_exit 1
   | _ :: _ => ret tt
   end) ;;;
  call (ScrapeLinkedinPosts pg post_urls
          (delay_between_requests_seconds config) true)
       (scrape_linkedin_posts w) ;;;
  call SaveSession (save_session w).

(** The [finally] clause: [context.close()] under a bare [except: pass]. *)
Definition finally_close (w : world) : Py unit :=
  try_except (call ContextClose (context_close w)) (fun _ => Some (ret tt)).

(** The [try] statement of [main] with its [except] and [finally]
    clauses. *)
Definition try_statement (w : world) (config : config) (country_info : country)
    (pg : page) (search_query email password : string) : Py unit :=
  try_finally
    (try_except
       (try_body w config country_info pg search_query email password)
       handlers)
    (finally_close w).

(** The body of [with sync_playwright() as p]. *)
Definition browse (w : world) (config : config) (country_info : country)
    (search_query email password : string) : Py unit :=
  call (Mkdir (session_dir country_info)) (mkdir w) ;;;
  print (MsgLocale (name country_info) (geo country_info)
           (tz country_info) (locale country_info)) ;;;
  call (LaunchPersistentContext (session_dir country_info) (headless config)
          (geo country_info) (tz country_info) (locale country_info))
       (launch_persistent_context w) ;;;
  call SetExtraHttpHeaders (set_extra_http_headers w) ;;;
  pg <- (match context_pages w with
         | p0 :: _ => ret p0
         | [] => call NewPage (new_page w)
         end) ;;
  try_statement w config country_info pg search_query email password.

(** [with sync_playwright() as p: body]. *)
Definition with_sync_playwright (w : world) (body : Py unit) : Py unit :=
  call SyncPlaywrightEnter (sync_playwright w) ;;;
  try_finally body (emit SyncPlaywrightExit).

(** "Determine search query". *)
Definition determine_search_query (args : namespace) (config : config)
  : Py string :=
  match args_search args with
  | Some (String c s) => ret (String c s)
  | _ =>
      job <- index0 (job_titles config) ;;
      keyword <- index0 (search_keywords config) ;;
      ret (job ++ " " ++ keyword)%string
  end.

Definition main (a : argv) (w : world) : Py unit :=
  let args := parse_args a in
  let config := load_config (config_json w) in
  let config := override_config args config in
  let country_key := args_country args in
  let country_info := COUNTRIES country_key in
  search_query <- determine_search_query args config ;;
  print (MsgBanner search_query (max_results config) (name country_info)
           (session_dir country_info) (headless config)) ;;;
  let email := getenv w (email_env country_info) in
  let password := getenv w (password_env country_info) in
  if unset_or_empty email || unset_or_empty password then
    print (MsgMissingCredentials (name country_info) (email_env country_info)
             (password_env country_info)) ;;;
    sys_exit 1
  else
    print (MsgUsingCredentials (from_env email)) ;;;
    with_sync_playwright w
      (browse w config country_info search_query
         (from_env email) (from_env password)).

(* ------------------------------------------------------------------ *)
(** ** Stages of a run                                                  *)
(* ------------------------------------------------------------------ *)

Definition is_ok {A} (r : res A) : bool :=
  match r with Ok _ => true | Raise _ => false end.

Definition run_config (a : argv) (w : world) : config :=
  effective_config a (config_json w).

Definition run_country (a : argv) : country :=
  COUNTRIES (args_country (parse_args a)).

Definition run_query (a : argv) (w : world) : res string :=
  outcome (determine_search_query (parse_args a) (run_config a w)).

Definition run_email (a : argv) (w : world) : option string :=
  getenv w (email_env (run_country a)).

Definition run_password (a : argv) (w : world) : option string :=
  getenv w (password_env (run_country a)).

(** The credential check of [main] fails. *)
Definition credentials_missing (a : argv) (w : world) : bool :=
  unset_or_empty (run_email a w) || unset_or_empty (run_password a w).

(** The page handed to the scraper, when there is one. *)
Definition run_page (w : world) : res page :=
  match context_pages w with
  | p0 :: _ => Ok p0
  | [] => new_page w
  end.

(** Browsing has begun: the run went through the query, the credential
    check, the launch of the persistent context and the choice of the page,
    and enters the [try] statement. *)
Definition browsing_begun (a : argv) (w : world) : bool :=
  is_ok (run_query a w)
  && negb (credentials_missing a w)
  && is_ok (sync_playwright w)
  && is_ok (mkdir w)
  && is_ok (launch_persistent_context w)
  && is_ok (set_extra_http_headers w)
  && is_ok (run_page w).

(** How the calls inside the [try] statement end, up to the first one that
    raises: the exception that reaches the [except] clauses, if any. *)
Definition raised_in_try (w : world) : option exn :=
  match search_linkedin_posts w with
  | Raise e => Some e
  | Ok [] => Some (SystemExit 1)
  | Ok (_ :: _) =>
      match scrape_linkedin_posts w with
      | Raise e => Some e
      | Ok _ =>
          match save_session w with
          | Raise e => Some e
          | Ok _ => None
          end
      end
  end.

(** The scraper is interrupted before [save_session] is reached: during the
    search, or during the extraction of the posts. *)
Definition interrupted_while_scraping (w : world) : bool :=
  match search_linkedin_posts w with
  | Raise KeyboardInterrupt => true
  | Ok (_ :: _) =>
      match scrape_linkedin_posts w with
      | Raise KeyboardInterrupt => true
      | _ => false
      end
  | _ => false
  end.

Definition saves_session (t : list event) : bool := existsb is_save_session t.
Definition closes_context (t : list event) : bool := existsb is_context_close t.
Definition scrapes_posts (t : list event) : bool := existsb is_scrape t.

(** The [max_results] argument of the call to [search_linkedin_posts]. *)
Definition searched_with (t : list event) : option Z :=
  match find (fun ev => match ev with
                        | SearchLinkedinPosts _ _ _ _ _ _ _ => true
                        | _ => false end) t with
  | Some (SearchLinkedinPosts _ _ m _ _ _ _) => Some m
  | _ => None
  end.

(** Events of the scraping calls and of the closing of the context; the
    set-up of a run emits none of them. *)
Definition is_scraper_event (ev : event) : bool :=
  match ev with
  | SearchLinkedinPosts _ _ _ _ _ _ _ | ScrapeLinkedinPosts _ _ _ _
  | SaveSession | ContextClose => true
  | _ => false
  end.

(** The events of a run before its [try] statement. *)
Definition setup_events (a : argv) (w : world) (q : string) : list event :=
  let config := run_config a w in
  let country_info := run_country a in
  [ Print (MsgBanner q (max_results config) (name country_info)
             (session_dir country_info) (headless config));
    Print (MsgUsingCredentials (from_env (run_email a w)));
    SyncPlaywrightEnter;
    Mkdir (session_dir country_info);
    Print (MsgLocale (name country_info) (geo country_info)
             (tz country_info) (locale country_info));
    LaunchPersistentContext (session_dir country_info) (headless config)
      (geo country_info) (tz country_info) (locale country_info);
    SetExtraHttpHeaders ]
  ++ match context_pages w with [] => [NewPage] | _ :: _ => [] end.

Arguments setup_events : simpl never.

(* ------------------------------------------------------------------ *)
(** ** Sample runs                                                   *)
(* ------------------------------------------------------------------ *)

(** An environment holding the credentials of the India profile only. *)
Definition env_india (k : string) : option string :=
  if String.eqb k "LINKEDIN_EMAIL" then Some "user@example.com"
  else if String.eqb k "LINKEDIN_PASSWORD" then Some "secret"
  else None.

(** No flag on the command line. *)
Definition no_flags : argv :=
  {| flag_search := None; flag_max_results := None;
     flag_country := None; flag_headless := false |}.

(** A run in which every collaborator call returns, with two posts found. *)
Definition world_ok : world :=
  {| config_json := None;
     getenv := env_india;
     sync_playwright := Ok tt;
     mkdir := Ok tt;
     launch_persistent_context := Ok tt;
     set_extra_http_headers := Ok tt;
     context_pages := [O];
     new_page := Ok 1%nat;
     search_linkedin_posts := Ok ["https://in.linkedin.com/posts/a";
                                  "https://in.linkedin.com/posts/b"];
     scrape_linkedin_posts := Ok tt;
     save_session := Ok tt;
     context_close := Ok tt |}.

Definition with_search (w : world) (r : res (list string)) : world :=
  {| config_json := config_json w; getenv := getenv w;
     sync_playwright := sync_playwright w; mkdir := mkdir w;
     launch_persistent_context := launch_persistent_context w;
     set_extra_http_headers := set_extra_http_headers w;
     context_pages := context_pages w; new_page := new_page w;
     search_linkedin_posts := r;
     scrape_linkedin_posts := scrape_linkedin_posts w;
     save_session := save_session w; context_close := context_close w |}.

Definition with_scrape (w : world) (r : res unit) : world :=
  {| config_json := config_json w; getenv := getenv w;
     sync_playwright := sync_playwright w; mkdir := mkdir w;
     launch_persistent_context := launch_persistent_context w;
     set_extra_http_headers := set_extra_http_headers w;
     context_pages := context_pages w; new_page := new_page w;
     search_linkedin_posts := search_linkedin_posts w;
     scrape_linkedin_posts := r;
     save_session := save_session w; context_close := context_close w |}.

Definition with_config (w : world) (c : option config_file) : world :=
  {| config_json := c; getenv := getenv w;
     sync_playwright := sync_playwright w; mkdir := mkdir w;
     launch_persistent_context := launch_persistent_context w;
     set_extra_http_headers := set_extra_http_headers w;
     context_pages := context_pages w; new_page := new_page w;
     search_linkedin_posts := search_linkedin_posts w;
     scrape_linkedin_posts := scrape_linkedin_posts w;
     save_session := save_session w; context_close := context_close w |}.

(** The user interrupts the extraction of the posts. *)
Definition world_interrupted : world :=
  with_scrape world_ok (Raise KeyboardInterrupt).

(** The login is rejected during the search. *)
Definition world_auth_failed : world :=
  with_search world_ok (Raise (PyException "AuthFailed")).

(** The search surface yields no post. *)
Definition world_no_posts : world := with_search world_ok (Ok []).

(** The USA profile is selected, and only the India credentials are set. *)
Definition usa_flag : argv :=
  {| flag_search := None; flag_max_results := None;
     flag_country := Some usa; flag_headless := false |}.

(** The command line with the given flags. *)
Definition flags (s : option string) (m : option Z) (c : option country_key)
    (h : bool) : argv :=
  {| flag_search := s; flag_max_results := m;
     flag_country := c; flag_headless := h |}.

(** A [config.json] asking for ten results. *)
Definition config_ten : config_file :=
  {| f_search_keywords := None; f_job_titles := None;
     f_max_results := Some 10;
     f_delay_between_requests_seconds := None; f_headless := None |}.

(** A [config.json] with an empty [job_titles] list. *)
Definition config_no_titles : config_file :=
  {| f_search_keywords := None; f_job_titles := Some [];
     f_max_results := None;
     f_delay_between_requests_seconds := None; f_headless := None |}.

(* ------------------------------------------------------------------ *)
(** ** Search Collector                                                 *)
(* ------------------------------------------------------------------ *)

(** Modelled from the spec: what one extraction pass of the Search
    Collector reads from the page, whose code
    ([scraper.linkedin_scraper.search_linkedin_posts]) is not in [main.py]:
    the post links currently rendered, and whether more content may
    exist. *)
Record pass : Type := {
  links : list string;
  more_content : bool
}.

(** Modelled from the spec: the search surface as the collector sees it,
    the observation of the [k]-th extraction pass (after [k] scrolls). *)
Definition surface : Type := nat -> pass.

(** Modelled from the spec: "a bounded number of consecutive empty passes",
    two by the testable properties. *)
Definition stagnation_limit : nat := 2.

(** Modelled from the spec: membership of a canonical URL in the result
    sequence. *)
Definition seen (u : string) (urls : list string) : bool :=
  existsb (String.eqb u) urls.

Section Collector.

(** Modelled from the spec: the canonical form of a link ("strip tracking
    parameters, resolve to absolute"); the spec leaves the function open,
    it is a parameter of the collector. *)
Variable canonicalize : string -> string.

(** Modelled from the spec: steps (b) and (c) of the collector,
    "canonicalize each to a stable URL form" and "append any not already
    present to the result sequence", the sequence being capped at
    [max_results]. *)
Fixpoint append_new (cap : Z) (urls found : list string) : list string :=
  match found with
  | [] => urls
  | l :: rest =>
      if cap <=? Z.of_nat (List.length urls) then urls
      else
        let u := canonicalize l in
        if seen u urls then append_new cap urls rest
        else append_new cap (urls ++ [u]) rest
  end.

(** Modelled from the spec: the collection loop of the Search Collector.
    Pass [k] extracts the rendered links and appends the new ones; the
    loop ends when [max_results] is reached, when a pass after a scroll
    discovers no new URL, when [stagnation_limit] consecutive passes were
    empty, or when no more content may exist; otherwise it scrolls and
    runs pass [k + 1].  [fuel] bounds the number of passes. *)
Fixpoint collect_loop (fuel : nat) (s : surface) (cap : Z) (k empty : nat)
    (urls : list string) : option (list string) :=
  match fuel with
  | O => None
  | S fuel' =>
      let obs := s k in
      let urls' := append_new cap urls (links obs) in
      let discovered := (List.length urls' - List.length urls)%nat in
      let empty' := if (discovered =? 0)%nat then S empty else O in
      if cap <=? Z.of_nat (List.length urls') then Some urls'
      else if (discovered =? 0)%nat && (0 <? k)%nat then Some urls'
      else if (stagnation_limit <=? empty')%nat then Some urls'
      else if negb (more_content obs) then Some urls'
      else collect_loop fuel' s cap (S k) empty' urls'
  end.

(** Modelled from the spec: [collect(page, query, max_results, delay)];
    [search_surface query] is the page after navigation to the search
    surface with the query encoded.  The delay only spaces the passes in
    time.  The fuel given is enough for every surface. *)
Definition collect (search_surface : string -> surface) (query : string)
    (max_results : Z) : list string :=
  match collect_loop (Z.to_nat max_results + 2) (search_surface query)
          max_results 0 0 [] with
  | Some urls => urls
  | None => []
  end.

(** Modelled from the spec: "deduplicated by canonical URL, insertion
    order = discovery order (first-seen wins)", as a function of the
    canonical URLs in the order they were read. *)
Definition first_seen_onto (urls discovered : list string) : list string :=
  fold_left (fun acc u => if seen u acc then acc else acc ++ [u])
            discovered urls.

(** Modelled from the spec: the canonical URLs read by the first [p]
    passes, in reading order. *)
Definition discovered_by (s : surface) (p : nat) : list string :=
  map canonicalize (concat (map (fun k => links (s k)) (seq 0 p))).

End Collector.

(* ------------------------------------------------------------------ *)
(** ** Hiring Classifier                                                *)
(* ------------------------------------------------------------------ *)

(** Modelled from the spec: the tag the Post Extractor puts on a record
    ([Unavailable] when the post failed to load or timed out); the
    extractor and the classifier are not in [main.py]. *)
Inductive availability : Type := Extracted | Unavailable.

(** Modelled from the spec: the Post Record of the data model. *)
Record PostRecord : Type := {
  author_name : string;
  author_headline : string;
  post_text : string;
  timestamp : string;
  engagement : option Z;
  source_url : string;
  tag : availability
}.

(** Modelled from the spec: the Classification Result, "a Post Record
    tagged as hiring / not-hiring, with the matched keyword(s) retained". *)
Record ClassificationResult : Type := {
  record : PostRecord;
  hiring : bool;
  matched : list string
}.

(** Modelled from the spec: the configured phrase sets of the classifier. *)
Record policy : Type := {
  keyword_set : list string;
  job_title_set : list string;
  intent_cues : list string
}.

(** Modelled from the spec: case folding of one character (ASCII). *)
Definition fold_char (c : ascii) : ascii :=
  let n := nat_of_ascii c in
  if ((65 <=? n) && (n <=? 90))%nat then ascii_of_nat (n + 32) else c.

(** Modelled from the spec: "normalize post text (case-fold)". *)
Fixpoint case_fold (s : string) : string :=
  match s with
  | EmptyString => EmptyString
  | String c s' => String (fold_char c) (case_fold s')
  end.

(** Modelled from the spec: "substring containment". *)
Fixpoint contains (phrase text : string) : bool :=
  String.prefix phrase text
  || match text with
     | EmptyString => false
     | String _ text' => contains phrase text'
     end.

(** Modelled from the spec: the phrases of a set found in a text, both
    normalized. *)
Definition matches (phrases : list string) (text : string) : list string :=
  filter (fun ph => contains (case_fold ph) (case_fold text)) phrases.

(** Modelled from the spec: "at least one phrase". *)
Definition nonempty {A} (l : list A) : bool :=
  match l with [] => false | _ :: _ => true end.

(** Modelled from the spec: [classify(record)].  An [Unavailable] record is
    not-hiring; otherwise the record is hiring when its text contains a
    keyword phrase, or a job-title phrase together with a hiring-intent
    cue. *)
Definition classify (p : policy) (r : PostRecord) : ClassificationResult :=
  match tag r with
  | Unavailable => {| record := r; hiring := false; matched := [] |}
  | Extracted =>
      let keywords := matches (keyword_set p) (post_text r) in
      let titles := matches (job_title_set p) (post_text r) in
      let cues := matches (intent_cues p) (post_text r) in
      let by_title := nonempty titles && nonempty cues in
      {| record := r;
         hiring := nonempty keywords || by_title;
         matched := keywords ++ (if by_title then titles else []) |}
  end.

(** Modelled from the spec: the output of the pipeline, the Classification
    Results of the hiring-positive posts. *)
Definition hiring_posts (p : policy) (records : list PostRecord)
  : list ClassificationResult :=
  filter hiring (map (classify p) records).

(* ------------------------------------------------------------------ *)
(** ** Sample surfaces, policies and posts                            *)
(* ------------------------------------------------------------------ *)

(** A canonical form that drops the query part of a link. *)
Fixpoint strip_query (link : string) : string :=
  match link with
  | EmptyString => EmptyString
  | String c rest =>
      if Ascii.eqb c "?" then EmptyString else String c (strip_query rest)
  end.

(** A surface rendering three distinct posts over two passes, then nothing
    new. *)
Definition sample_surface (query : string) : surface :=
  fun k =>
    match k with
    | O => {| links := ["/posts/a?trk=feed"; "/posts/b"; "/posts/a"];
              more_content := true |}
    | S O => {| links := ["/posts/b?trk=x"; "/posts/c"];
                more_content := true |}
    | _ => {| links := []; more_content := true |}
    end.

(** A surface that never renders a post link. *)
Definition dead_end : surface :=
  fun _ => {| links := []; more_content := true |}.

(** The keyword and job-title sets of the default configuration, with two
    intent cues. *)
Definition default_policy : policy :=
  {| keyword_set := search_keywords default_config;
     job_title_set := job_titles default_config;
     intent_cues := ["apply"; "join our team"] |}.

Definition post (text : string) (t : availability) : PostRecord :=
  {| author_name := "A. Author";
     author_headline := "Engineering Manager";
     post_text := text;
     timestamp := "2d";
     engagement := None;
     source_url := "https://www.linkedin.com/posts/a";
     tag := t |}.

(* ------------------------------------------------------------------ *)
(** ** Observations on a run                                            *)
(* ------------------------------------------------------------------ *)

Definition is_search (ev : event) : bool :=
  match ev with SearchLinkedinPosts _ _ _ _ _ _ _ => true | _ => false end.

Definition is_new_page (ev : event) : bool :=
  match ev with NewPage => true | _ => false end.

(** The pages handed to the scraper, call after call. *)
Definition scraper_pages (t : list event) : list page :=
  flat_map (fun ev => match ev with
                      | SearchLinkedinPosts pg _ _ _ _ _ _ => [pg]
                      | ScrapeLinkedinPosts pg _ _ _ => [pg]
                      | _ => []
                      end) t.

(** The first call of the set-up inside the [with] block that raises:
    [mkdir], the launch of the persistent context, the extra headers, or
    the opening of a page. *)
Definition setup_failure (w : world) : option exn :=
  match mkdir w with
  | Raise e => Some e
  | Ok _ =>
      match launch_persistent_context w with
      | Raise e => Some e
      | Ok _ =>
          match set_extra_http_headers w with
          | Raise e => Some e
          | Ok _ =>
              match run_page w with
              | Raise e => Some e
              | Ok _ => None
              end
          end
      end
  end.

(** The same run with another outcome for [context.close()]. *)
Definition with_close (w : world) (r : res unit) : world :=
  {| config_json := config_json w; getenv := getenv w;
     sync_playwright := sync_playwright w; mkdir := mkdir w;
     launch_persistent_context := launch_persistent_context w;
     set_extra_http_headers := set_extra_http_headers w;
     context_pages := context_pages w; new_page := new_page w;
     search_linkedin_posts := search_linkedin_posts w;
     scrape_linkedin_posts := scrape_linkedin_posts w;
     save_session := save_session w; context_close := r |}.

(** The same run in another process environment. *)
Definition with_env (w : world) (env : string -> option string) : world :=
  {| config_json := config_json w; getenv := env;
     sync_playwright := sync_playwright w; mkdir := mkdir w;
     launch_persistent_context := launch_persistent_context w;
     set_extra_http_headers := set_extra_http_headers w;
     context_pages := context_pages w; new_page := new_page w;
     search_linkedin_posts := search_linkedin_posts w;
     scrape_linkedin_posts := scrape_linkedin_posts w;
     save_session := save_session w; context_close := context_close w |}.

(** The same run with another outcome for the launch of the context. *)
Definition with_launch (w : world) (r : res unit) : world :=
  {| config_json := config_json w; getenv := getenv w;
     sync_playwright := sync_playwright w; mkdir := mkdir w;
     launch_persistent_context := r;
     set_extra_http_headers := set_extra_http_headers w;
     context_pages := context_pages w; new_page := new_page w;
     search_linkedin_posts := search_linkedin_posts w;
     scrape_linkedin_posts := scrape_linkedin_posts w;
     save_session := save_session w; context_close := context_close w |}.

(** An environment holding the credentials of both profiles. *)
Definition env_both (k : string) : option string :=
  if String.eqb k "LINKEDIN_EMAIL_USA" then Some "us@example.com"
  else if String.eqb k "LINKEDIN_PASSWORD_USA" then Some "hidden"
  else env_india k.

(** A [config.json] that turns the headless mode on. *)
Definition config_headless : config_file :=
  {| f_search_keywords := None; f_job_titles := None;
     f_max_results := None;
     f_delay_between_requests_seconds := None; f_headless := Some true |}.

(* ------------------------------------------------------------------ *)
(** * Properties of the orchestration                                   *)
(* ------------------------------------------------------------------ *)

Lemma determine_search_query_cases (args : namespace) (c : config) :
  determine_search_query args c = ([], Raise IndexError)
  \/ exists q, determine_search_query args c = ([], Ok q).
Proof.
  unfold determine_search_query.
  destruct (args_search args) as [[|ch s]|]; simpl.
  2: { right. eexists. reflexivity. }
  all: destruct (job_titles c) as [|job jobs]; simpl; [now left|];
    destruct (search_keywords c) as [|kw kws]; simpl; [now left|];
    right; eexists; reflexivity.
Qed.

Lemma andb_true_split (b c : bool) : b && c = true -> b = true /\ c = true.
Proof. now destruct b, c. Qed.

Lemma is_ok_true {A} (r : res A) : is_ok r = true -> exists v, r = Ok v.
Proof. destruct r; [eexists; reflexivity | discriminate]. Qed.

Lemma setup_events_no_scraper (a : argv) (w : world) (q : string) :
  forallb (fun ev => negb (is_scraper_event ev)) (setup_events a w q) = true.
Proof. unfold setup_events. now destruct (context_pages w). Qed.

(** A run in which browsing begins is the set-up, then the [try]
    statement, then the exit of the Playwright context manager. *)
Lemma main_browsing (a : argv) (w : world) :
  browsing_begun a w = true ->
  exists q pg,
    run_query a w = Ok q /\ run_page w = Ok pg
    /\ main a w =
       (setup_events a w q
          ++ trace (try_statement w (run_config a w) (run_country a) pg q
                      (from_env (run_email a w)) (from_env (run_password a w)))
          ++ [SyncPlaywrightExit],
        outcome (try_statement w (run_config a w) (run_country a) pg q
                   (from_env (run_email a w)) (from_env (run_password a w)))).
Proof.
  unfold browsing_begun. intros H.
  apply andb_true_split in H as [H Hpage].
  apply andb_true_split in H as [H Hhdr].
  apply andb_true_split in H as [H Hlaunch].
  apply andb_true_split in H as [H Hmkdir].
  apply andb_true_split in H as [H Hpw].
  apply andb_true_split in H as [Hq Hcred].
  apply negb_true_iff in Hcred.
  apply is_ok_true in Hpage as [pg Hpage].
  apply is_ok_true in Hhdr as [[] Hhdr].
  apply is_ok_true in Hlaunch as [[] Hlaunch].
  apply is_ok_true in Hmkdir as [[] Hmkdir].
  apply is_ok_true in Hpw as [[] Hpw].
  apply is_ok_true in Hq as [q Hq].
  exists q, pg. split; [exact Hq|]. split; [exact Hpage|].
  unfold setup_events.
  unfold run_query, credentials_missing, run_email, run_password, run_country,
    run_config, effective_config in *.
  unfold main.
  destruct (determine_search_query_cases (parse_args a)
              (override_config (parse_args a) (load_config (config_json w))))
    as [E | [q' E]]; rewrite E in *; simpl in Hq; [discriminate|].
  injection Hq as ->.
  unfold bind at 1. unfold print at 1, emit at 1, bind at 1.
  rewrite Hcred.
  unfold with_sync_playwright, browse, print, emit, call.
  rewrite Hpw, Hmkdir, Hlaunch, Hhdr.
  unfold run_page in Hpage.
  unfold try_statement.
  destruct (context_pages w) as [|p0 ps].
  - rewrite Hpage. unfold bind at 7.
    destruct (try_finally (try_except _ _) _) as [t r]. reflexivity.
  - injection Hpage as ->. unfold ret, bind at 7.
    destruct (try_finally (try_except _ _) _) as [t r]. reflexivity.
Qed.

Lemma setup_events_quiet (f : event -> bool) (a : argv) (w : world) (q : string) :
  (forall ev, f ev = true -> is_scraper_event ev = true) ->
  existsb f (setup_events a w q) = false.
Proof.
  intros Hf. apply not_true_is_false. intros Hex.
  apply existsb_exists in Hex as (ev & Hin & Hev).
  pose proof (setup_events_no_scraper a w q) as Hall.
  rewrite forallb_forall in Hall. specialize (Hall ev Hin).
  rewrite (Hf ev Hev) in Hall. discriminate.
Qed.

Lemma save_is_scraper ev : is_save_session ev = true -> is_scraper_event ev = true.
Proof. now destruct ev. Qed.

Lemma close_is_scraper ev : is_context_close ev = true -> is_scraper_event ev = true.
Proof. now destruct ev. Qed.

Lemma scrape_is_scraper ev : is_scrape ev = true -> is_scraper_event ev = true.
Proof. now destruct ev. Qed.

(** The [finally] clause always closes the context and never raises. *)
Lemma finally_close_spec (w : world) : finally_close w = ([ContextClose], Ok tt).
Proof.
  unfold finally_close, call, try_except.
  destruct (context_close w) as [[]|e]; reflexivity.
Qed.

(** Enter the [try] statement of a run in which browsing begins, and
    evaluate it on the outcomes of the scraper calls. *)
Ltac enter_try H :=
  let q := fresh "q" in
  let pg := fresh "pg" in
  let Hq := fresh "Hq" in
  let Hpg := fresh "Hpg" in
  destruct (main_browsing _ _ H) as (q & pg & Hq & Hpg & ->);
  unfold exit_status, saves_session, closes_context, scrapes_posts,
    trace, outcome;
  cbn [fst snd];
  rewrite ?existsb_app, ?(setup_events_quiet _ _ _ _ save_is_scraper),
    ?(setup_events_quiet _ _ _ _ close_is_scraper),
    ?(setup_events_quiet _ _ _ _ scrape_is_scraper);
  unfold try_statement; rewrite finally_close_spec;
  unfold try_body, call, print, emit.

Ltac in_trace :=
  apply in_or_app; right; simpl;
  repeat first [left; reflexivity | right].

(** ** C1 *)

(** C1, as stated, fails: in the run [world_interrupted] browsing has begun,
    the user interrupts the extraction, and [save_session] is not invoked
    before the process exits. *)
Lemma interrupt_mid_extraction_skips_save_session :
  browsing_begun no_flags world_interrupted = true
  /\ raised_in_try world_interrupted = Some KeyboardInterrupt
  /\ saves_session (trace (main no_flags world_interrupted)) = false.
Proof. repeat split; vm_compute; reflexivity. Qed.

(** C1 (amended): in a run where browsing has begun, [save_session] is
    invoked exactly when the search returned at least one URL and the
    extraction returned normally; when the user interrupts the search or
    the extraction, the interrupt is reported, [save_session] is not
    invoked, the browsing context is closed and [main] returns (exit
    status 0). *)
Theorem interrupt_closes_context_without_saving (a : argv) (w : world) :
  browsing_begun a w = true ->
  (saves_session (trace (main a w)) = true <->
   (exists u us, search_linkedin_posts w = Ok (u :: us))
   /\ scrape_linkedin_posts w = Ok tt)
  /\ (interrupted_while_scraping w = true ->
      saves_session (trace (main a w)) = false
      /\ In (Print MsgInterrupted) (trace (main a w))
      /\ closes_context (trace (main a w)) = true
      /\ outcome (main a w) = Ok tt
      /\ exit_status (main a w) = 0).
Proof.
  intros Hb. unfold interrupted_while_scraping.
  enter_try Hb.
  destruct (search_linkedin_posts w) as [[|u us]|[]];
    destruct (scrape_linkedin_posts w) as [[]|[]];
    destruct (save_session w) as [[]|[]];
    cbn; (split; [split; [intros; try discriminate; eauto
                         | intros [(? & ? & ?) ?]; congruence]
                 | intros; try discriminate;
                   repeat split; try reflexivity; in_trace ]).
Qed.

Lemma interrupt_closes_context_without_saving_witness :
  saves_session (trace (main no_flags world_interrupted)) = false
  /\ closes_context (trace (main no_flags world_interrupted)) = true.
Proof.
  destruct (interrupt_closes_context_without_saving no_flags world_interrupted)
    as [_ H]; [reflexivity|].
  destruct H as (Hs & _ & Hc & _); [reflexivity|].
  split; [exact Hs | exact Hc].
Defined.

(** ** C2 *)

(** C2, as stated, fails: in the run [world_auth_failed] browsing has begun,
    the search raises [AuthFailed], an [Exception], and the process exits
    with status 0. *)
Lemma auth_failure_exits_with_status_zero :
  browsing_begun no_flags world_auth_failed = true
  /\ raised_in_try world_auth_failed = Some (PyException "AuthFailed")
  /\ is_Exception (PyException "AuthFailed") = true
  /\ exit_status (main no_flags world_auth_failed) = 0.
Proof. repeat split; vm_compute; reflexivity. Qed.

(** C2 (amended): for every [Exception] raised by the search, the
    extraction or [save_session] after browsing has begun, the run reports
    the failure (the "Unexpected error" line and the traceback), closes the
    browsing context, and [main] returns: the process exits with status
    0. *)
Theorem exception_reported_then_exit_zero (a : argv) (w : world) (e : exn) :
  browsing_begun a w = true ->
  raised_in_try w = Some e ->
  is_Exception e = true ->
  In (Print (MsgUnexpectedError e)) (trace (main a w))
  /\ In PrintExc (trace (main a w))
  /\ closes_context (trace (main a w)) = true
  /\ outcome (main a w) = Ok tt
  /\ exit_status (main a w) = 0.
Proof.
  intros Hb Hr He. unfold raised_in_try in Hr.
  enter_try Hb.
  destruct (search_linkedin_posts w) as [[|u us]|e1];
    [ | destruct (scrape_linkedin_posts w) as [[]|e2];
        [ destruct (save_session w) as [[]|e3] | ] | ];
    try discriminate; injection Hr as Hr; subst;
    try discriminate;
    match goal with
    | X : is_Exception ?x = true |- _ => destruct x; try discriminate
    end;
    cbn; repeat split; try reflexivity; in_trace.
Qed.

Lemma exception_reported_then_exit_zero_witness :
  exit_status (main no_flags world_auth_failed) = 0.
Proof.
  apply (exception_reported_then_exit_zero no_flags world_auth_failed
           (PyException "AuthFailed")); reflexivity.
Defined.

(** An exception raised by the launch of the persistent context (a profile
    directory already in use, say) is outside the [try] statement: it is
    not caught, and the process exits with status 1. *)
Lemma launch_failure_is_uncaught (a : argv) (w : world) (e : exn) (q : string) :
  run_query a w = Ok q ->
  credentials_missing a w = false ->
  sync_playwright w = Ok tt ->
  mkdir w = Ok tt ->
  launch_persistent_context w = Raise e ->
  outcome (main a w) = Raise e
  /\ closes_context (trace (main a w)) = false.
Proof.
  intros Hq Hc Hp Hm Hl.
  unfold run_query, credentials_missing, run_email, run_password, run_country,
    run_config, effective_config in *.
  unfold main.
  destruct (determine_search_query_cases (parse_args a)
              (override_config (parse_args a) (load_config (config_json w))))
    as [E | [q' E]]; rewrite E in *; simpl in Hq; [discriminate|].
  unfold bind at 1. unfold print at 1, emit at 1, bind at 1.
  rewrite Hc.
  unfold with_sync_playwright, browse, print, emit, call.
  rewrite Hp, Hm, Hl. split; reflexivity.
Qed.

(** ** C5 *)

(** C5, as stated, fails: in the run [world_no_posts] the search returns
    the empty list and the process exits with status 1. *)
Lemma empty_search_result_exits_with_status_one :
  browsing_begun no_flags world_no_posts = true
  /\ search_linkedin_posts world_no_posts = Ok []
  /\ outcome (main no_flags world_no_posts) = Raise (SystemExit 1)
  /\ exit_status (main no_flags world_no_posts) <> 0.
Proof. repeat split; vm_compute; congruence. Qed.

(** C5 (amended): when the search returns an empty list, [main] treats it
    as fatal: it prints "No LinkedIn post URLs found" and calls
    [sys.exit(1)]; no post is scraped, [save_session] is not invoked, the
    browsing context is closed, and the process exits with status 1. *)
Theorem empty_search_result_is_fatal (a : argv) (w : world) :
  browsing_begun a w = true ->
  search_linkedin_posts w = Ok [] ->
  outcome (main a w) = Raise (SystemExit 1)
  /\ exit_status (main a w) = 1
  /\ In (Print MsgNoUrlsFound) (trace (main a w))
  /\ scrapes_posts (trace (main a w)) = false
  /\ saves_session (trace (main a w)) = false
  /\ closes_context (trace (main a w)) = true.
Proof.
  intros Hb Hs. enter_try Hb. rewrite Hs. cbn.
  repeat split; try reflexivity. in_trace.
Qed.

Lemma empty_search_result_is_fatal_witness :
  exit_status (main no_flags world_no_posts) = 1.
Proof.
  apply (empty_search_result_is_fatal no_flags world_no_posts); reflexivity.
Defined.

(** ** C3 *)

(** C3: when the e-mail or the password variable of the selected country
    profile is unset or empty, the process exits with a non-zero status and
    the run has done nothing but print: no browser is launched, no page is
    opened, no navigation occurs.  When the search query could be
    determined, the run is exactly the banner, the "Missing credentials"
    message and [sys.exit(1)]. *)
Theorem missing_credentials_fatal_before_browsing (a : argv) (w : world) :
  credentials_missing a w = true ->
  exit_status (main a w) <> 0
  /\ forallb is_print (trace (main a w)) = true
  /\ (forall q, run_query a w = Ok q ->
      main a w =
      ([ Print (MsgBanner q (max_results (run_config a w))
                  (name (run_country a)) (session_dir (run_country a))
                  (headless (run_config a w)));
         Print (MsgMissingCredentials (name (run_country a))
                  (email_env (run_country a))
                  (password_env (run_country a))) ],
       Raise (SystemExit 1))).
Proof.
  unfold credentials_missing, run_email, run_password, run_query,
    run_country, run_config, effective_config.
  intros Hc. unfold main.
  destruct (determine_search_query_cases (parse_args a)
              (override_config (parse_args a) (load_config (config_json w))))
    as [E | [q E]]; rewrite E.
  - cbn. repeat split; try discriminate.
  - unfold bind at 1. unfold print at 1, emit at 1, bind at 1.
    rewrite Hc. cbn. repeat split; try discriminate.
    intros q' Hq. injection Hq as ->. reflexivity.
Qed.

Lemma missing_credentials_fatal_before_browsing_witness :
  exit_status (main usa_flag world_ok) <> 0
  /\ forallb is_print (trace (main usa_flag world_ok)) = true.
Proof.
  destruct (missing_credentials_fatal_before_browsing usa_flag world_ok)
    as (H1 & H2 & _); [reflexivity|].
  split; [exact H1 | exact H2].
Defined.

(** ** C9 *)

Lemma override_config_lists (args : namespace) (c : config) :
  job_titles (override_config args c) = job_titles c
  /\ search_keywords (override_config args c) = search_keywords c.
Proof.
  unfold override_config.
  destruct (int_truthy (args_max_results args)), (args_headless args);
    split; reflexivity.
Qed.

Lemma searched_with_effective_max (a : argv) (w : world) :
  browsing_begun a w = true ->
  searched_with (trace (main a w)) = Some (max_results (run_config a w)).
Proof.
  intros Hb.
  destruct (main_browsing _ _ Hb) as (q & pg & Hq & Hpg & ->).
  unfold trace, try_statement. rewrite finally_close_spec.
  unfold setup_events, try_body, call, print, emit, searched_with.
  destruct (context_pages w);
    destruct (search_linkedin_posts w) as [[|u us]|[]];
    try reflexivity;
    destruct (scrape_linkedin_posts w) as [[]|[]];
    try reflexivity;
    destruct (save_session w) as [[]|[]]; reflexivity.
Qed.

(** C9: when [--max-results] is omitted the effective [max_results] is the
    argparse default 50, whatever [config.json] holds; [--max-results 0] is
    discarded and the configured value stays; any other value, also one
    below 1, replaces the configured one; and the effective value is what
    [search_linkedin_posts] is called with, without validation. *)
Theorem max_results_flag_overrides_config :
  (forall s c h cj,
      max_results (effective_config (flags s None c h) cj) = 50)
  /\ (forall s c h cj,
         max_results (effective_config (flags s (Some 0) c h) cj)
         = max_results (load_config cj))
  /\ (forall s c h cj n,
         n <> 0 ->
         max_results (effective_config (flags s (Some n) c h) cj) = n)
  /\ (forall a w,
         browsing_begun a w = true ->
         searched_with (trace (main a w))
         = Some (max_results (effective_config a (config_json w)))).
Proof.
  repeat split.
  - intros s c [] cj; reflexivity.
  - intros s c [] cj; reflexivity.
  - intros s c h cj n Hn.
    unfold effective_config, override_config, int_truthy. cbn.
    destruct (Z.eqb_spec n 0) as [->|_]; [contradiction|].
    destruct h; reflexivity.
  - intros a w. apply searched_with_effective_max.
Qed.

Lemma max_results_flag_overrides_config_witness :
  max_results (effective_config no_flags (Some config_ten)) = 50
  /\ max_results (effective_config (flags None (Some 0) None false)
                    (Some config_ten)) = 10
  /\ searched_with (trace (main (flags None (Some (-5)) None false) world_ok))
     = Some (-5).
Proof.
  destruct max_results_flag_overrides_config as (H1 & H2 & H3 & H4).
  split; [exact (H1 None None false (Some config_ten))|].
  split; [exact (H2 None None false (Some config_ten))|].
  rewrite (H4 (flags None (Some (-5)) None false) world_ok); [|reflexivity].
  apply f_equal.
  apply (H3 None None false None (-5)). discriminate.
Defined.

(** ** C10 *)

(** C10: when [--search] is not given and the loaded configuration has an
    empty [job_titles] list or an empty [search_keywords] list, [main]
    ends with an uncaught [IndexError] raised while the default query is
    built: nothing has been printed, the credentials have not been looked
    at, and no browsing has begun. *)
Theorem empty_config_list_raises_IndexError (a : argv) (w : world) :
  flag_search a = None ->
  job_titles (load_config (config_json w)) = []
  \/ search_keywords (load_config (config_json w)) = [] ->
  outcome (main a w) = Raise IndexError
  /\ trace (main a w) = []
  /\ exit_status (main a w) = 1.
Proof.
  intros Hs Hl.
  assert (E : determine_search_query (parse_args a)
                (override_config (parse_args a) (load_config (config_json w)))
              = ([], Raise IndexError)).
  { unfold determine_search_query. cbn [parse_args args_search]. rewrite Hs.
    destruct (override_config_lists (parse_args a) (load_config (config_json w)))
      as [-> ->].
    destruct Hl as [-> | ->]; [reflexivity|].
    destruct (job_titles _); reflexivity. }
  unfold exit_status, outcome, trace, main. rewrite E. cbn. auto.
Qed.

Lemma empty_config_list_raises_IndexError_witness :
  outcome (main no_flags (with_config world_ok (Some config_no_titles)))
  = Raise IndexError.
Proof.
  apply (empty_config_list_raises_IndexError no_flags
           (with_config world_ok (Some config_no_titles))).
  - reflexivity.
  - left. reflexivity.
Defined.

(* ------------------------------------------------------------------ *)
(** * Properties of the Search Collector                                *)
(* ------------------------------------------------------------------ *)

Lemma seen_In (u : string) (urls : list string) :
  seen u urls = true <-> In u urls.
Proof.
  unfold seen. rewrite existsb_exists. split.
  - intros (x & Hin & Heq). apply String.eqb_eq in Heq. now subst.
  - intros Hin. exists u. split; [exact Hin | apply String.eqb_refl].
Qed.

Lemma firstn_short {A} (n : nat) (l : list A) :
  (length (firstn n l) < n)%nat -> firstn n l = l.
Proof.
  revert l. induction n as [|n IH]; intros l H; [inversion H|].
  destruct l as [|x l]; [reflexivity|].
  simpl in *. f_equal. apply IH. lia.
Qed.

Section CollectorFacts.

Variable canonicalize : string -> string.

Lemma append_new_extends (cap : Z) (found urls : list string) :
  exists more, append_new canonicalize cap urls found = urls ++ more.
Proof.
  revert urls. induction found as [|l rest IH]; intros urls; simpl.
  - exists []. now rewrite app_nil_r.
  - destruct (cap <=? Z.of_nat (length urls)).
    + exists []. now rewrite app_nil_r.
    + destruct (seen (canonicalize l) urls); [apply IH|].
      destruct (IH (urls ++ [canonicalize l])) as [more ->].
      exists (canonicalize l :: more). now rewrite <- app_assoc.
Qed.

Lemma append_new_length (cap : Z) (found urls : list string) :
  (length urls <= length (append_new canonicalize cap urls found))%nat.
Proof.
  destruct (append_new_extends cap found urls) as [more ->].
  rewrite length_app. lia.
Qed.

Lemma append_new_NoDup (cap : Z) (found urls : list string) :
  NoDup urls -> NoDup (append_new canonicalize cap urls found).
Proof.
  revert urls. induction found as [|l rest IH]; intros urls Hnd; simpl.
  - exact Hnd.
  - destruct (cap <=? Z.of_nat (length urls)); [exact Hnd|].
    destruct (seen (canonicalize l) urls) eqn:Hseen; [now apply IH|].
    apply IH. apply NoDup_app; [exact Hnd | repeat constructor; intros [] |].
    intros x Hx [<-|[]].
    apply seen_In in Hx. congruence.
Qed.

Lemma append_new_capped (cap : Z) (found urls : list string) :
  Z.of_nat (length urls) <= cap ->
  Z.of_nat (length (append_new canonicalize cap urls found)) <= cap.
Proof.
  revert urls. induction found as [|l rest IH]; intros urls Hle; simpl.
  - exact Hle.
  - destruct (Z.leb_spec cap (Z.of_nat (length urls))); [exact Hle|].
    destruct (seen (canonicalize l) urls); [now apply IH|].
    apply IH. rewrite length_app. simpl. lia.
Qed.

Lemma first_seen_onto_extends (discovered urls : list string) :
  exists more, first_seen_onto urls discovered = urls ++ more.
Proof.
  unfold first_seen_onto.
  revert urls. induction discovered as [|u d IH]; intros urls; simpl.
  - exists []. now rewrite app_nil_r.
  - destruct (seen u urls); [apply IH|].
    destruct (IH (urls ++ [u])) as [more ->].
    exists (u :: more). now rewrite <- app_assoc.
Qed.

(** Appending the new links of a pass under the cap is taking the first
    [cap] URLs of the first-seen sequence. *)
Lemma append_new_first_seen (cap : Z) (found urls : list string) :
  Z.of_nat (length urls) <= cap ->
  append_new canonicalize cap urls found
  = firstn (Z.to_nat cap) (first_seen_onto urls (map canonicalize found)).
Proof.
  revert urls. induction found as [|l rest IH]; intros urls Hle.
  - simpl. symmetry. apply firstn_all2. lia.
  - cbn [append_new map].
    destruct (Z.leb_spec cap (Z.of_nat (length urls))) as [Hfull|Hroom].
    + destruct (first_seen_onto_extends (canonicalize l :: map canonicalize rest) urls)
        as [more ->].
      rewrite firstn_app.
      replace (Z.to_nat cap - length urls)%nat with O by lia.
      rewrite firstn_all2 by lia. simpl. now rewrite app_nil_r.
    + unfold first_seen_onto. cbn [fold_left].
      destruct (seen (canonicalize l) urls).
      * now apply IH.
      * apply IH. rewrite length_app. simpl. lia.
Qed.

Lemma discovered_by_S (s : surface) (k : nat) :
  discovered_by canonicalize s (S k)
  = discovered_by canonicalize s k ++ map canonicalize (links (s k)).
Proof.
  unfold discovered_by.
  rewrite seq_S, map_app, concat_app, map_app. simpl.
  now rewrite app_nil_r.
Qed.

(** One more pass extends the first-seen sequence by the links of that
    pass. *)
Lemma first_seen_onto_pass (s : surface) (k : nat) :
  first_seen_onto [] (discovered_by canonicalize s (S k))
  = first_seen_onto (first_seen_onto [] (discovered_by canonicalize s k))
      (map canonicalize (links (s k))).
Proof.
  rewrite discovered_by_S. unfold first_seen_onto. apply fold_left_app.
Qed.

(** The loop invariant: what is collected before pass [k] is the
    first-seen sequence of the passes before [k], it is below the cap and
    has no duplicate. *)
Lemma collect_loop_result (s : surface) (cap : Z) (fuel k empty : nat)
    (urls r : list string) :
  collect_loop canonicalize fuel s cap k empty urls = Some r ->
  Z.of_nat (length urls) <= cap ->
  NoDup urls ->
  urls = first_seen_onto [] (discovered_by canonicalize s k) ->
  Z.of_nat (length r) <= cap
  /\ NoDup r
  /\ exists p,
      r = firstn (Z.to_nat cap)
            (first_seen_onto [] (discovered_by canonicalize s p)).
Proof.
  revert k empty urls.
  induction fuel as [|fuel IH]; intros k empty urls Hrun Hle Hnd Hinv;
    [discriminate|].
  cbn [collect_loop] in Hrun.
  set (urls' := append_new canonicalize cap urls (links (s k))) in *.
  assert (Hle' : Z.of_nat (length urls') <= cap)
    by now apply append_new_capped.
  assert (Hnd' : NoDup urls') by now apply append_new_NoDup.
  assert (Hfs : urls' = firstn (Z.to_nat cap)
                          (first_seen_onto [] (discovered_by canonicalize s (S k)))).
  { unfold urls'. rewrite append_new_first_seen by exact Hle.
    now rewrite first_seen_onto_pass, <- Hinv. }
  destruct (Z.leb_spec cap (Z.of_nat (length urls'))) as [_|Hroom];
    [injection Hrun as <-; eauto|].
  destruct ((_ =? 0)%nat && (0 <? k)%nat);
    [injection Hrun as <-; eauto|].
  destruct (stagnation_limit <=? _)%nat;
    [injection Hrun as <-; eauto|].
  destruct (negb (more_content (s k)));
    [injection Hrun as <-; eauto|].
  apply (IH _ _ _ Hrun Hle' Hnd').
  rewrite Hfs. apply firstn_short.
  rewrite <- Hfs. lia.
Qed.

(** The loop ends within the fuel as soon as the fuel exceeds what is
    still missing to the cap (plus one for the pass before any scroll). *)
Lemma collect_loop_terminates (s : surface) (cap : Z) (fuel k empty : nat)
    (urls : list string) :
  (Z.to_nat cap - length urls + (if (k =? 0)%nat then 1 else 0) < fuel)%nat ->
  exists r, collect_loop canonicalize fuel s cap k empty urls = Some r.
Proof.
  revert k empty urls.
  induction fuel as [|fuel IH]; intros k empty urls Hfuel; [lia|].
  cbn [collect_loop].
  set (urls' := append_new canonicalize cap urls (links (s k))).
  pose proof (append_new_length cap (links (s k)) urls) as Hlen.
  fold urls' in Hlen.
  destruct (Z.leb_spec cap (Z.of_nat (length urls'))) as [_|Hroom];
    [eauto|].
  destruct (Nat.eqb_spec (length urls' - length urls) 0) as [Hnone|Hsome];
    destruct (Nat.ltb_spec 0 k) as [Hk|Hk]; cbn [andb]; [eauto| | |];
    (destruct (stagnation_limit <=? _)%nat; [eauto|]);
    (destruct (negb (more_content (s k))); [eauto|]);
    apply IH; cbn [Nat.eqb];
    destruct (Nat.eqb_spec k 0); lia.
Qed.

(** More fuel does not change the result. *)
Lemma collect_loop_fuel (s : surface) (cap : Z) (fuel fuel' k empty : nat)
    (urls r : list string) :
  collect_loop canonicalize fuel s cap k empty urls = Some r ->
  (fuel <= fuel')%nat ->
  collect_loop canonicalize fuel' s cap k empty urls = Some r.
Proof.
  revert fuel' k empty urls.
  induction fuel as [|fuel IH]; intros fuel' k empty urls Hrun Hle;
    [discriminate|].
  destruct fuel' as [|fuel']; [lia|].
  cbn [collect_loop] in *.
  destruct (_ <=? _); [exact Hrun|].
  destruct (_ && _); [exact Hrun|].
  destruct (_ <=? _)%nat; [exact Hrun|].
  destruct (negb _); [exact Hrun|].
  apply IH; [exact Hrun | lia].
Qed.

End CollectorFacts.

(** When no pass renders a post link, the collector returns the empty
    sequence. *)
Lemma collect_nothing_rendered (canonicalize : string -> string)
    (search_surface : string -> surface) (query : string) (N : Z) :
  (forall k, links (search_surface query k) = []) ->
  collect canonicalize search_surface query N = [].
Proof.
  intros Hnone. unfold collect.
  replace (Z.to_nat N + 2)%nat with (S (S (Z.to_nat N))) by lia.
  cbn [collect_loop]. rewrite !Hnone. cbn.
  destruct (N <=? 0); [reflexivity|].
  destruct (more_content (search_surface query O)); reflexivity.
Qed.

Example collect_sample_capped :
  collect strip_query sample_surface "hiring" 2 = ["/posts/a"; "/posts/b"].
Proof. reflexivity. Qed.

Example collect_sample_all :
  collect strip_query sample_surface "hiring" 50
  = ["/posts/a"; "/posts/b"; "/posts/c"].
Proof. reflexivity. Qed.

Example collect_sample_empty :
  collect strip_query (fun _ _ => {| links := []; more_content := true |})
    "hiring" 50 = [].
Proof. reflexivity. Qed.

(** ** C4 *)

(** C4: for every query and every [max_results = N >= 1], the sequence
    returned by the Search Collector has at most [N] URLs, no duplicate
    canonical URL, and is the first [N] URLs, in discovery order with the
    first occurrence of each winning, of what the passes performed have
    read. *)
Theorem collect_capped_deduplicated_in_order
    (canonicalize : string -> string) (search_surface : string -> surface)
    (query : string) (N : Z) :
  1 <= N ->
  let urls := collect canonicalize search_surface query N in
  Z.of_nat (length urls) <= N
  /\ NoDup urls
  /\ exists p,
      urls = firstn (Z.to_nat N)
               (first_seen_onto []
                  (discovered_by canonicalize (search_surface query) p)).
Proof.
  intros HN urls. subst urls. unfold collect.
  destruct (collect_loop_terminates canonicalize (search_surface query) N
              (Z.to_nat N + 2) 0 0 []) as [r Hr].
  { simpl. lia. }
  rewrite Hr.
  apply (collect_loop_result canonicalize _ _ _ _ _ _ _ Hr).
  - simpl. lia.
  - constructor.
  - reflexivity.
Qed.

Lemma collect_capped_deduplicated_in_order_witness :
  Z.of_nat (length (collect strip_query sample_surface "hiring" 2)) <= 2
  /\ NoDup (collect strip_query sample_surface "hiring" 2).
Proof.
  destruct (collect_capped_deduplicated_in_order strip_query sample_surface
              "hiring" 2) as (H1 & H2 & _); [lia|].
  split; [exact H1 | exact H2].
Defined.

(** ** C6 *)

(** C6: the collection loop always terminates, within [max_results + 2]
    passes on every surface, and more fuel does not change its result; a
    pass ends the loop when [max_results] is reached, when it follows a
    scroll and discovers no new URL, and when it discovers no new URL
    right after a pass that discovered none, whether or not [max_results]
    has been reached. *)
Theorem collection_loop_terminates
    (canonicalize : string -> string) (s : surface) (cap : Z) :
  (exists r,
      collect_loop canonicalize (Z.to_nat cap + 2) s cap 0 0 [] = Some r
      /\ forall fuel, (Z.to_nat cap + 2 <= fuel)%nat ->
                      collect_loop canonicalize fuel s cap 0 0 [] = Some r)
  /\ (forall fuel k empty urls,
         cap <= Z.of_nat (length (append_new canonicalize cap urls (links (s k)))) ->
         collect_loop canonicalize (S fuel) s cap k empty urls
         = Some (append_new canonicalize cap urls (links (s k))))
  /\ (forall fuel k empty urls,
         append_new canonicalize cap urls (links (s k)) = urls ->
         (0 < k)%nat ->
         collect_loop canonicalize (S fuel) s cap k empty urls = Some urls)
  /\ (forall fuel k empty urls,
         append_new canonicalize cap urls (links (s k)) = urls ->
         (1 <= empty)%nat ->
         collect_loop canonicalize (S fuel) s cap k empty urls = Some urls).
Proof.
  repeat split.
  - destruct (collect_loop_terminates canonicalize s cap
                (Z.to_nat cap + 2) 0 0 []) as [r Hr]; [simpl; lia|].
    exists r. split; [exact Hr|].
    intros fuel Hfuel. now apply (collect_loop_fuel canonicalize _ _ _ _ _ _ _ _ Hr).
  - intros fuel k empty urls Hcap. cbn [collect_loop].
    destruct (Z.leb_spec cap
                (Z.of_nat (length (append_new canonicalize cap urls (links (s k))))));
      [reflexivity | lia].
  - intros fuel k empty urls Hnone Hk. cbn [collect_loop].
    rewrite Hnone, Nat.sub_diag.
    destruct (_ <=? _); [reflexivity|].
    destruct (Nat.ltb_spec 0 k); [reflexivity | lia].
  - intros fuel k empty urls Hnone Hempty. cbn [collect_loop].
    rewrite Hnone, Nat.sub_diag.
    destruct (_ <=? _); [reflexivity|].
    destruct (_ && _); [reflexivity|].
    cbn [Nat.eqb]. unfold stagnation_limit.
    destruct (Nat.leb_spec 2 (S empty)); [reflexivity | lia].
Qed.

Lemma collection_loop_terminates_witness :
  collect_loop strip_query 1 dead_end 50 1 1 [] = Some [].
Proof.
  destruct (collection_loop_terminates strip_query dead_end 50)
    as (_ & _ & _ & H).
  apply (H O 1%nat 1%nat []); [reflexivity | lia].
Defined.

(* ------------------------------------------------------------------ *)
(** * Properties of the Hiring Classifier                               *)
(* ------------------------------------------------------------------ *)

Example classify_keyword :
  let c := classify default_policy
             (post "We are hiring a backend developer" Extracted) in
  hiring c = true /\ matched c = ["hiring"; "we are hiring"].
Proof. split; reflexivity. Qed.

Example classify_title_with_cue :
  let c := classify default_policy
             (post "iOS Developer wanted, apply today" Extracted) in
  hiring c = true /\ matched c = ["iOS developer"].
Proof. split; reflexivity. Qed.

Example classify_no_match :
  hiring (classify default_policy (post "Happy Friday everyone" Extracted))
  = false.
Proof. reflexivity. Qed.

Example classify_unavailable :
  hiring (classify default_policy
            (post "We are hiring a backend developer" Unavailable))
  = false.
Proof. reflexivity. Qed.

(** ** C7 *)

(** C7: for every record tagged [Unavailable] and every configured keyword
    and job-title set, [classify] returns a result (it is a total function,
    it cannot raise) that is not-hiring, with no matched phrase, and the
    record is not in the output of the pipeline. *)
Theorem unavailable_is_not_hiring (p : policy) (r : PostRecord) :
  tag r = Unavailable ->
  hiring (classify p r) = false
  /\ matched (classify p r) = []
  /\ forall records, ~ In (classify p r) (hiring_posts p records).
Proof.
  intros Htag.
  assert (Hh : hiring (classify p r) = false)
    by (unfold classify; rewrite Htag; reflexivity).
  repeat split.
  - exact Hh.
  - unfold classify. rewrite Htag. reflexivity.
  - intros records Hin. unfold hiring_posts in Hin.
    apply filter_In in Hin as [_ Hin]. congruence.
Qed.

Lemma unavailable_is_not_hiring_witness :
  hiring (classify default_policy
            (post "We are hiring a backend developer" Unavailable)) = false.
Proof.
  apply (unavailable_is_not_hiring default_policy
           (post "We are hiring a backend developer" Unavailable)).
  reflexivity.
Defined.

(* ------------------------------------------------------------------ *)
(** * Further properties of the orchestration                           *)
(* ------------------------------------------------------------------ *)

Lemma setup_events_filter (f : event -> bool) (a : argv) (w : world) (q : string) :
  (forall ev, f ev = true -> is_scraper_event ev = true) ->
  filter f (setup_events a w q) = [].
Proof.
  intros Hf.
  pose proof (setup_events_no_scraper a w q) as Hall.
  rewrite forallb_forall in Hall.
  induction (setup_events a w q) as [|ev t IH]; [reflexivity|].
  simpl. destruct (f ev) eqn:Hev.
  - specialize (Hall ev (or_introl eq_refl)).
    rewrite (Hf ev Hev) in Hall. discriminate.
  - apply IH. intros x Hx. apply Hall. now right.
Qed.

Lemma search_is_scraper ev : is_search ev = true -> is_scraper_event ev = true.
Proof. now destruct ev. Qed.

Lemma scraper_is_scraper ev : is_scraper_event ev = true -> is_scraper_event ev = true.
Proof. exact (fun H => H). Qed.

(** ** The search query *)

(** X1: a non-empty [--search] is the query, whatever the configuration
    holds; without it (or with [--search ""]) the query is the first job
    title, a space, the first search keyword; and the only way the query
    fails is the [IndexError] of an empty list, which needs [--search] to
    be absent or empty. *)
Theorem search_query_determination (a : argv) (w : world) :
  (forall q, flag_search a = Some q -> q <> "" -> run_query a w = Ok q)
  /\ (forall j js k ks,
         str_truthy (flag_search a) = false ->
         job_titles (load_config (config_json w)) = j :: js ->
         search_keywords (load_config (config_json w)) = k :: ks ->
         run_query a w = Ok (j ++ " " ++ k)%string)
  /\ (forall e,
         run_query a w = Raise e ->
         e = IndexError
         /\ str_truthy (flag_search a) = false
         /\ (job_titles (load_config (config_json w)) = []
             \/ search_keywords (load_config (config_json w)) = [])).
Proof.
  unfold run_query, run_config, effective_config, determine_search_query.
  cbn [parse_args args_search].
  destruct (override_config_lists (parse_args a) (load_config (config_json w)))
    as [-> ->].
  split; [|split].
  - intros q -> Hq. destruct q; [contradiction | reflexivity].
  - intros j js k ks Hs -> ->.
    destruct (flag_search a) as [[|c s]|]; try discriminate; reflexivity.
  - intros e He.
    destruct (flag_search a) as [[|c s]|]; try discriminate;
      (destruct (job_titles _) as [|j js];
       [injection He as <-; auto|]);
      (destruct (search_keywords _) as [|k ks];
       [injection He as <-; auto | discriminate]).
Qed.

Lemma search_query_determination_witness :
  run_query no_flags world_ok = Ok "mobile developer hiring".
Proof.
  destruct (search_query_determination no_flags world_ok) as (_ & H & _).
  apply (H "mobile developer"
           ["app developer"; "iOS developer"; "android developer"]
           "hiring" ["we are hiring"; "looking for"; "job opening"]);
    reflexivity.
Defined.

(** ** The command line and the configuration *)

(** X2: [--headless] can only turn the headless mode on: the effective
    mode is the flag or the configured value, so a configuration that asks
    for headless cannot be undone from the command line; and the command
    line never changes the search keywords, the job titles or the delay
    between requests. *)
Theorem command_line_overrides (a : argv) (cj : option config_file) :
  headless (effective_config a cj)
  = flag_headless a || headless (load_config cj)
  /\ search_keywords (effective_config a cj) = search_keywords (load_config cj)
  /\ job_titles (effective_config a cj) = job_titles (load_config cj)
  /\ delay_between_requests_seconds (effective_config a cj)
     = delay_between_requests_seconds (load_config cj).
Proof.
  unfold effective_config, override_config. cbn [parse_args args_headless].
  destruct (int_truthy _), (flag_headless a); repeat split.
Qed.

(** ** The country table *)

(** X3: the profiles of the country table are isolated from each other:
    two countries never share a session directory, an e-mail variable or a
    password variable, and no variable serves both as an e-mail and as a
    password. *)
Theorem countries_isolated (k1 k2 : country_key) :
  (session_dir (COUNTRIES k1) = session_dir (COUNTRIES k2) -> k1 = k2)
  /\ (email_env (COUNTRIES k1) = email_env (COUNTRIES k2) -> k1 = k2)
  /\ (password_env (COUNTRIES k1) = password_env (COUNTRIES k2) -> k1 = k2)
  /\ email_env (COUNTRIES k1) <> password_env (COUNTRIES k2).
Proof.
  destruct k1, k2; repeat split; intros H; try reflexivity; discriminate H.
Qed.

Lemma countries_isolated_witness : usa = usa.
Proof.
  apply (proj1 (countries_isolated usa usa)). reflexivity.
Defined.

(** ** The environment *)



(** ** The [finally] clause *)

(** X5: what [context.close()] does in the [finally] clause, return or
    raise, changes nothing to the run: the bare [except: pass] swallows
    its exception, so the events and the outcome are the same. *)
Theorem context_close_outcome_ignored (a : argv) (w : world) (r : res unit) :
  main a (with_close w r) = main a w.
Proof.
  unfold main, with_sync_playwright, browse, try_statement.
  rewrite !finally_close_spec. reflexivity.
Qed.

(** X6: in every run where browsing has begun, whatever the scraper calls
    do, the browsing context is closed exactly once, and the closing of
    the context and the exit of the Playwright context manager are the
    last two events. *)
Theorem context_closed_once_at_the_end (a : argv) (w : world) :
  browsing_begun a w = true ->
  exists t,
    trace (main a w) = t ++ [ContextClose; SyncPlaywrightExit]
    /\ closes_context t = false.
Proof.
  intros Hb.
  destruct (main_browsing _ _ Hb) as (q & pg & Hq & Hpg & ->).
  unfold trace, try_statement. cbn [fst]. rewrite finally_close_spec.
  unfold try_body, call, print, emit, closes_context.
  destruct (search_linkedin_posts w) as [[|u us]|[]];
    [ | destruct (scrape_linkedin_posts w) as [[]|[]];
        [ destruct (save_session w) as [[]|[]] | .. ] | .. ];
    cbn;
    match goal with
    | |- exists t, ?s ++ ?l = _ /\ _ =>
        exists (s ++ removelast (removelast l))
    end;
    (split; [rewrite <- app_assoc; reflexivity|]);
    rewrite existsb_app, (setup_events_quiet _ _ _ _ close_is_scraper);
    reflexivity.
Qed.

Lemma context_closed_once_at_the_end_witness :
  exists t,
    trace (main no_flags world_interrupted)
    = t ++ [ContextClose; SyncPlaywrightExit]
    /\ closes_context t = false.
Proof.
  apply (context_closed_once_at_the_end no_flags world_interrupted).
  reflexivity.
Defined.

(** ** The exit status *)

(** X7: once browsing has begun, an interrupt and every [Exception] of
    the scraper calls are swallowed: [main] returns, status 0, like a
    complete run.  Any other exception leaves [main] uncaught: a
    [SystemExit] (the [sys.exit(1)] of an empty search result, or one
    raised by the scraper) gives the status of its code, and any other
    [BaseException] gives status 1. *)
Theorem exit_status_after_browsing (a : argv) (w : world) :
  browsing_begun a w = true ->
  outcome (main a w)
  = match raised_in_try w with
    | Some (SystemExit code) => Raise (SystemExit code)
    | Some (PyBaseException cls) => Raise (PyBaseException cls)
    | _ => Ok tt
    end
  /\ exit_status (main a w)
     = match raised_in_try w with
       | Some (SystemExit code) => process_status code
       | Some (PyBaseException _) => 1
       | _ => 0
       end.
Proof.
  intros Hb. unfold raised_in_try. enter_try Hb.
  destruct (search_linkedin_posts w) as [[|u us]|[]];
    [ | destruct (scrape_linkedin_posts w) as [[]|[]];
        [ destruct (save_session w) as [[]|[]] | .. ] | .. ];
    split; reflexivity.
Qed.

Lemma exit_status_after_browsing_witness :
  exit_status (main no_flags world_no_posts) = 1
  /\ exit_status (main no_flags
                    (with_search world_ok (Raise (SystemExit 256)))) = 0
  /\ exit_status (main no_flags
                    (with_search world_ok
                       (Raise (PyBaseException "GeneratorExit")))) = 1.
Proof.
  destruct (exit_status_after_browsing no_flags world_no_posts)
    as [_ H1]; [reflexivity|].
  destruct (exit_status_after_browsing no_flags
              (with_search world_ok (Raise (SystemExit 256))))
    as [_ H2]; [reflexivity|].
  destruct (exit_status_after_browsing no_flags
              (with_search world_ok (Raise (PyBaseException "GeneratorExit"))))
    as [_ H3]; [reflexivity|].
  split; [exact H1 | split; [exact H2 | exact H3]].
Defined.

(** ** The calls to the scraper *)

(** X8: once browsing has begun, [search_linkedin_posts] is called exactly
    once, on the page chosen by the set-up, with the query of the run, the
    effective [max_results] and delay, and with the subdomain, the e-mail
    and the password of the selected country. *)
Theorem search_called_once_with_profile (a : argv) (w : world) :
  browsing_begun a w = true ->
  exists q pg,
    run_query a w = Ok q /\ run_page w = Ok pg
    /\ filter is_search (trace (main a w))
       = [ SearchLinkedinPosts pg q (max_results (run_config a w))
             (delay_between_requests_seconds (run_config a w))
             (linkedin_subdomain (run_country a))
             (from_env (run_email a w)) (from_env (run_password a w)) ].
Proof.
  intros Hb.
  destruct (main_browsing _ _ Hb) as (q & pg & Hq & Hpg & ->).
  exists q, pg. split; [exact Hq|]. split; [exact Hpg|].
  unfold trace, try_statement. cbn [fst]. rewrite finally_close_spec.
  rewrite filter_app, (setup_events_filter _ _ _ _ search_is_scraper).
  unfold try_body, call, print, emit.
  destruct (search_linkedin_posts w) as [[|u us]|[]];
    [ | destruct (scrape_linkedin_posts w) as [[]|[]];
        [ destruct (save_session w) as [[]|[]] | .. ] | .. ];
    reflexivity.
Qed.

Lemma search_called_once_with_profile_witness :
  exists q pg,
    run_query usa_flag (with_env world_ok env_both) = Ok q
    /\ run_page (with_env world_ok env_both) = Ok pg
    /\ filter is_search (trace (main usa_flag (with_env world_ok env_both)))
       = [ SearchLinkedinPosts pg q 50 2 "www" "us@example.com" "hidden" ].
Proof.
  apply (search_called_once_with_profile usa_flag (with_env world_ok env_both)).
  reflexivity.
Defined.

(** X9: once browsing has begun, [scrape_linkedin_posts] is called only
    when the search returned a non-empty list, and then exactly once, with
    the list the search returned, on the page of the search, with the
    configured delay and [filter_hiring_only=True]. *)
Theorem scrape_receives_search_result (a : argv) (w : world) :
  browsing_begun a w = true ->
  exists pg,
    run_page w = Ok pg
    /\ filter is_scrape (trace (main a w))
       = match search_linkedin_posts w with
         | Ok (u :: us) =>
             [ ScrapeLinkedinPosts pg (u :: us)
                 (delay_between_requests_seconds (run_config a w)) true ]
         | _ => []
         end.
Proof.
  intros Hb.
  destruct (main_browsing _ _ Hb) as (q & pg & Hq & Hpg & ->).
  exists pg. split; [exact Hpg|].
  unfold trace, try_statement. cbn [fst]. rewrite finally_close_spec.
  rewrite filter_app, (setup_events_filter _ _ _ _ scrape_is_scraper).
  unfold try_body, call, print, emit.
  destruct (search_linkedin_posts w) as [[|u us]|[]];
    [ | destruct (scrape_linkedin_posts w) as [[]|[]];
        [ destruct (save_session w) as [[]|[]] | .. ] | .. ];
    reflexivity.
Qed.

Lemma scrape_receives_search_result_witness :
  exists pg,
    run_page world_ok = Ok pg
    /\ filter is_scrape (trace (main no_flags world_ok))
       = [ ScrapeLinkedinPosts pg
             ["https://in.linkedin.com/posts/a";
              "https://in.linkedin.com/posts/b"] 2 true ].
Proof.
  apply (scrape_receives_search_result no_flags world_ok). reflexivity.
Defined.

(** X10: once browsing has begun, a new page is opened exactly when the
    persistent context came up without any page, and every call to the
    scraper that takes a page (the search, and the extraction when there is
    one) is made on the same page: the first page of the context when it
    has one, the page [new_page()] returned otherwise. *)
Theorem page_reused_when_present (a : argv) (w : world) :
  browsing_begun a w = true ->
  existsb is_new_page (trace (main a w))
  = match context_pages w with [] => true | _ :: _ => false end
  /\ exists pg,
      match context_pages w with
      | p0 :: _ => pg = p0
      | [] => new_page w = Ok pg
      end
      /\ hd_error (scraper_pages (trace (main a w))) = Some pg
      /\ Forall (eq pg) (scraper_pages (trace (main a w))).
Proof.
  intros Hb.
  destruct (main_browsing _ _ Hb) as (q & pg & Hq & Hpg & ->).
  unfold trace, try_statement. cbn [fst]. rewrite finally_close_spec.
  unfold run_page in Hpg.
  unfold scraper_pages. rewrite existsb_app, flat_map_app.
  unfold setup_events, try_body, call, print, emit.
  destruct (context_pages w) as [|p0 ps];
    [ | injection Hpg as -> ];
    (split;
     [ | exists pg; split; [first [exact Hpg | reflexivity]|] ]);
    (destruct (search_linkedin_posts w) as [[|u us]|[]];
     [ | destruct (scrape_linkedin_posts w) as [[]|[]];
         [ destruct (save_session w) as [[]|[]] | .. ] | .. ];
     cbn; repeat first [reflexivity | split | constructor]).
Qed.

Lemma page_reused_when_present_witness :
  existsb is_new_page (trace (main no_flags world_ok)) = false
  /\ scraper_pages (trace (main no_flags world_ok)) = [O; O].
Proof.
  destruct (page_reused_when_present no_flags world_ok)
    as (H & pg & Hpg & _ & _); [reflexivity|].
  split; [exact H | reflexivity].
Defined.

(** X11: an exception raised by the set-up inside the [with] block
    ([mkdir], the launch of the persistent context, the extra headers, the
    new page) is outside the [try] statement: it is not caught, [main]
    ends with it, the scraper is not called and [context.close()] is not
    called either, even when the context was launched; the Playwright
    context manager still exits, as the last event. *)
Theorem setup_failure_is_uncaught (a : argv) (w : world) (e : exn) (q : string) :
  run_query a w = Ok q ->
  credentials_missing a w = false ->
  sync_playwright w = Ok tt ->
  setup_failure w = Some e ->
  outcome (main a w) = Raise e
  /\ existsb is_scraper_event (trace (main a w)) = false
  /\ exists t, trace (main a w) = t ++ [SyncPlaywrightExit].
Proof.
  intros Hq Hc Hp Hf.
  unfold run_query, credentials_missing, run_email, run_password, run_country,
    run_config, effective_config in *.
  unfold main.
  destruct (determine_search_query_cases (parse_args a)
              (override_config (parse_args a) (load_config (config_json w))))
    as [E | [q' E]]; rewrite E in *; simpl in Hq; [discriminate|].
  unfold bind at 1. unfold print at 1, emit at 1, bind at 1.
  rewrite Hc.
  unfold with_sync_playwright, browse, print, emit, call.
  rewrite Hp. unfold setup_failure, run_page in Hf.
  destruct (mkdir w) as [[]|e1];
    [ destruct (launch_persistent_context w) as [[]|e2];
      [ destruct (set_extra_http_headers w) as [[]|e3];
        [ destruct (context_pages w) as [|p0 ps];
          [ destruct (new_page w) as [pg|e4] | ] | ] | ] | ];
    try discriminate; injection Hf as ->;
    (split; [reflexivity|]); (split; [reflexivity|]);
    cbn;
    match goal with
    | |- exists t, ?l = _ => exists (removelast l)
    end; reflexivity.
Qed.

Lemma setup_failure_is_uncaught_witness :
  outcome (main no_flags
             (with_launch world_ok (Raise (PyException "ResourceLocked"))))
  = Raise (PyException "ResourceLocked").
Proof.
  apply (setup_failure_is_uncaught no_flags
           (with_launch world_ok (Raise (PyException "ResourceLocked")))
           (PyException "ResourceLocked") "mobile developer hiring");
    reflexivity.
Defined.

(** X12: when the search returns at least one URL and the extraction and
    [save_session] return, the scraper is driven in this order: search,
    extraction, [save_session], closing of the context; and [main]
    returns. *)
Theorem complete_run_order (a : argv) (w : world) (u : string) (us : list string) :
  browsing_begun a w = true ->
  search_linkedin_posts w = Ok (u :: us) ->
  scrape_linkedin_posts w = Ok tt ->
  save_session w = Ok tt ->
  exists q pg,
    run_query a w = Ok q /\ run_page w = Ok pg
    /\ filter is_scraper_event (trace (main a w))
       = [ SearchLinkedinPosts pg q (max_results (run_config a w))
             (delay_between_requests_seconds (run_config a w))
             (linkedin_subdomain (run_country a))
             (from_env (run_email a w)) (from_env (run_password a w));
           ScrapeLinkedinPosts pg (u :: us)
             (delay_between_requests_seconds (run_config a w)) true;
           SaveSession;
           ContextClose ]
    /\ outcome (main a w) = Ok tt.
Proof.
  intros Hb Hs Hx Hv.
  destruct (main_browsing _ _ Hb) as (q & pg & Hq & Hpg & ->).
  exists q, pg. split; [exact Hq|]. split; [exact Hpg|].
  unfold trace, outcome, try_statement. cbn [fst snd].
  rewrite finally_close_spec.
  rewrite filter_app, (setup_events_filter _ _ _ _ scraper_is_scraper).
  unfold try_body, call, print, emit.
  rewrite Hs, Hx, Hv. split; reflexivity.
Qed.

Lemma complete_run_order_witness :
  outcome (main no_flags world_ok) = Ok tt.
Proof.
  destruct (complete_run_order no_flags world_ok
              "https://in.linkedin.com/posts/a"
              ["https://in.linkedin.com/posts/b"])
    as (q & pg & _ & _ & _ & H);
    [reflexivity | reflexivity | reflexivity | reflexivity | exact H].
Defined.

(** ** The start of the browser *)

(** X13: Playwright is started exactly in the runs whose search query could
    be determined and whose two credentials are set and non-empty; no other
    condition is checked before the browser is started. *)
Theorem playwright_started_iff (a : argv) (w : world) :
  In SyncPlaywrightEnter (trace (main a w))
  <-> (exists q, run_query a w = Ok q) /\ credentials_missing a w = false.
Proof.
  unfold run_query, credentials_missing, run_email, run_password, run_country,
    run_config, effective_config, trace.
  unfold main.
  destruct (determine_search_query_cases (parse_args a)
              (override_config (parse_args a) (load_config (config_json w))))
    as [E | [q E]]; rewrite E.
  - cbn. split; [intros [] | intros [[q Hq] _]; discriminate].
  - unfold bind at 1. unfold print at 1, emit at 1, bind at 1.
    destruct (_ || _).
    + cbn. split; [|intros [_ H]; discriminate].
      intros [H|[H|[]]]; discriminate.
    + unfold with_sync_playwright, print, emit, call.
      destruct (sync_playwright w) as [[]|e].
      * unfold bind. destruct (try_finally _ _) as [t r]. cbn.
        split; [intros _; split; [now exists q | reflexivity] | auto].
      * cbn. split; [intros _; split; [now exists q | reflexivity] | auto].
Qed.

Lemma playwright_started_iff_witness :
  In SyncPlaywrightEnter (trace (main no_flags world_ok)).
Proof.
  apply (proj2 (playwright_started_iff no_flags world_ok)).
  split; [exists "mobile developer hiring"; reflexivity | reflexivity].
Defined.
